(** * Study timer: session store, aggregation and streak engine

    A shallow embedding of the time-accounting core of the study-timer
    application (the [Dashboard], [InsightsView] and [WeeklyReport]
    components and [lib/types]).

    Conventions of the embedding.

    - A JavaScript [Date] is the number of milliseconds of local wall-clock
      time since the local epoch, in a zone with a constant UTC offset.  All
      the accessors the source uses ([getHours], [setHours], [setDate],
      [toDateString]) read or write local fields, comparisons and
      differences of instants do not depend on the offset, and ISO strings
      carry milliseconds, so [new Date(s)] and [toISOString()] are the
      identity on this representation.  Every date string is assumed to
      parse.
    - Whole numbers (durations in seconds, question counts, streak counts,
      epoch milliseconds) are [Z]; they stay far below 2^53, where the
      arithmetic of JavaScript numbers is exact.  Where the source divides
      ([duration / 3600], the percentage of [calculateChange]) the value is
      a binary64 [float] and is computed as such.
    - A subject is a string, as at run time; the [Subject] type of the
      source keeps it to the six subject names, so a subject is never the
      name of a property that every object inherits, and reading a subject
      that is not a key of [totals] gives [undefined] ([None] here).
    - React state is passed explicitly: a handler takes the current value of
      the state it closes over and returns the value it hands to the setter;
      a handler that can [throw] returns an [outcome]. *)

From Stdlib Require Import ZArith List Bool Floats Lia Permutation.
From stdpp Require Import gmap strings list fin_maps pretty.

Local Open Scope Z_scope.

(** ** Exceptions *)

Inductive outcome (A : Type) : Type :=
| Ok (a : A)
| Throw (msg : string).
Arguments Ok {A} a.
Arguments Throw {A} msg.

#[global] Instance outcome_ret : MRet outcome := fun _ a => Ok a.
#[global] Instance outcome_bind : MBind outcome := fun _ _ f m =>
  match m with
  | Ok a => f a
  | Throw msg => Throw msg
  end.

(** [Array.prototype.map] with a callback that may throw: elements are
    visited from left to right and the first exception aborts the call. *)
Fixpoint mapM {A B : Type} (f : A -> outcome B) (l : list A) : outcome (list B) :=
  match l with
  | [] => Ok []
  | x :: xs => y ← f x; ys ← mapM f xs; mret (y :: ys)
  end.

(** ** Dates *)

Module Date.
Definition t := Z.

Definition MS_PER_MINUTE : Z := 60000.
Definition MS_PER_HOUR : Z := 3600000.
Definition MS_PER_DAY : Z := 86400000.

Definition getTime (d : t) : Z := d.

(** The local calendar date of [d], as a day count. *)
Definition dayNumber (d : t) : Z := d / MS_PER_DAY.

Definition getHours (d : t) : Z := (d mod MS_PER_DAY) / MS_PER_HOUR.
Definition getMinutes (d : t) : Z := (d mod MS_PER_HOUR) / MS_PER_MINUTE.

(** [d.setHours(h, m, s, ms)] keeps the calendar date and replaces the
    time of day. *)
Definition setHours (d : t) (h m s ms : Z) : t :=
  dayNumber d * MS_PER_DAY + h * MS_PER_HOUR + m * MS_PER_MINUTE + s * 1000 + ms.

(** [d.setDate(d.getDate() + k)]: the same time of day, [k] days later. *)
Definition addDays (d : t) (k : Z) : t := d + k * MS_PER_DAY.

(** [toDateString()] prints the calendar date only; the source uses it for
    equality tests, which the day count decides. *)
Definition toDateString (d : t) : Z := dayNumber d.
End Date.

Module Calendar.
(** Day of the week of a calendar date, Sunday = 0 (day 0 is a Thursday). *)
Definition getDay (d : Date.t) : Z := (Date.dayNumber d + 4) mod 7.

(** Day of the month (1..31) of a calendar date in the proleptic
    Gregorian calendar. *)
Definition getDate (d : Date.t) : Z :=
  let z := Date.dayNumber d + 719468 in
  let doe := z mod 146097 in
  let yoe := (doe - doe / 1460 + doe / 36524 - doe / 146096) / 365 in
  let doy := doe - (365 * yoe + yoe / 4 - yoe / 100) in
  let mp := (5 * doy + 2) / 153 in
  doy - (153 * mp + 2) / 5 + 1.
End Calendar.

(** ** JavaScript helpers *)

(** An integer-valued JavaScript number as a binary64 value. *)
Definition Z2float (z : Z) : float :=
  match z with
  | 0 => 0%float
  | Z.pos _ => PrimFloat.of_uint63 (Uint63.of_Z z)
  | Z.neg p => PrimFloat.opp (PrimFloat.of_uint63 (Uint63.of_Z (Z.pos p)))
  end.

(** [Array.prototype.findIndex]: the first index whose element satisfies
    [p], or [-1]. *)
Fixpoint findIndexFrom {A : Type} (p : A -> bool) (i : Z) (l : list A) : Z :=
  match l with
  | [] => -1
  | x :: xs => if p x then i else findIndexFrom p (i + 1) xs
  end.

Definition findIndex {A : Type} (p : A -> bool) (l : list A) : Z :=
  findIndexFrom p 0 l.

(** [Math.round] on a binary64 value: the nearest integer, a tie going
    towards plus infinity; integers, infinities and NaN are returned as
    they are, and a zero result keeps the sign of the argument. *)
Definition Math_round (x : float) : float :=
  match Prim2SF x with
  | S754_finite s m e =>
      if 0 <=? e then x
      else
        let v := if s then Z.neg m else Z.pos m in
        let n := (2 * v + 2 ^ (- e)) / 2 ^ (1 - e) in
        if n =? 0 then (if s then neg_zero else 0%float) else Z2float n
  | _ => x
  end.

(** The integer a binary64 value denotes, when it denotes one. *)
Definition float2Z (x : float) : option Z :=
  match Prim2SF x with
  | S754_zero _ => Some 0
  | S754_finite s m e =>
      let v := if s then Z.neg m else Z.pos m in
      if 0 <=? e then Some (v * 2 ^ e)
      else if v mod 2 ^ (- e) =? 0 then Some (v / 2 ^ (- e)) else None
  | _ => None
  end.

(** ** Records of [lib/types] *)

(** [Subject] is a union of string literals; at run time it is a string. *)
Abbreviation Subject := string.

Module TimeLog.
Record t := mk {
  id : string;
  subject : Subject;
  duration : Z;
  timestamp : Date.t;
  startTime : Date.t;
  endTime : Date.t;
  questionCount : Z;
  goalId : option string;
  goalTitle : option string;
  notes : option string
}.
End TimeLog.

Module Task.
Record t := mk {
  id : string;
  title : string;
  subject : Subject;
  completed : bool;
  createdAt : Date.t
}.
End Task.

Module SubjectTestData.
Record t := mk {
  score : Z;
  questionsAttempted : Z;
  correctAnswers : Z;
  incorrectAnswers : Z;
  topicsTested : option (list string)
}.
End SubjectTestData.

Module TestRecord.
Record t := mk {
  id : string;
  date : Date.t;
  totalScore : Z;
  totalMarks : Z;
  timeSpent : Z;
  notes : option string;
  subjectData : list (string * SubjectTestData.t)
}.
End TestRecord.

Inductive ExamType := JEE | NEET.

Definition ExamType_eqb (a b : ExamType) : bool :=
  match a, b with
  | JEE, JEE | NEET, NEET => true
  | _, _ => false
  end.

Module ExamConfig.
(** [subjectMarks] is an object literal; its keys are enumerated in
    insertion order, so it is kept as an association list. *)
Record t := mk {
  type : ExamType;
  totalMarks : Z;
  subjectMarks : list (string * Z)
}.
End ExamConfig.

Definition DEFAULT_EXAM_CONFIGS (e : ExamType) : ExamConfig.t :=
  match e with
  | JEE => ExamConfig.mk JEE 300
             [("physics", 100); ("chemistry", 100); ("mathematics", 100)]
  | NEET => ExamConfig.mk NEET 720
              [("physics", 180); ("chemistry", 180); ("botany", 180); ("zoology", 180)]
  end.

Definition Object_keys {V : Type} (o : list (string * V)) : list string := map fst o.

(** [Array.prototype.includes] on strings. *)
Definition includes (l : list string) (s : string) : bool :=
  existsb (String.eqb s) l.

Module StreakConfig.
Record t := mk {
  minStudyHours : float;
  minQuestions : Z
}.
End StreakConfig.

Definition DEFAULT_STREAK_CONFIG : StreakConfig.t :=
  StreakConfig.mk 10%float 60.

Module UserSettings.
Record t := mk {
  examType : ExamType;
  customSubjectNames : list (string * string);
  streakConfig : StreakConfig.t
}.
End UserSettings.

Module HistoryEntry.
Record t := mk {
  date : Date.t;
  maintained : bool
}.
End HistoryEntry.

Module StreakData.
Record t := mk {
  currentStreak : Z;
  longestStreak : Z;
  lastStreakDate : Date.t;
  streakHistory : list HistoryEntry.t
}.
End StreakData.

(** ** Session store (the [Dashboard] component) *)

(** The [Dashboard] component, whose latest text is the last of the three
    units of [components/insights-view.tsx]; [components/dashboard.tsx]
    carries the same session handlers, without the streak engine. *)
Module Dashboard.

(** The five pieces of React state the handlers below read or replace. *)
Record state := mkState {
  tasks : list Task.t;
  timeLogs : list TimeLog.t;
  tests : list TestRecord.t;
  activeSubject : Subject;
  settings : UserSettings.t
}.

(** [setTimeLogs(e)]: when evaluating [e] throws, the setter is never
    reached and the state keeps its current value. *)
Definition setTimeLogs (current : list TimeLog.t) (next : outcome (list TimeLog.t))
  : list TimeLog.t :=
  match next with
  | Ok logs => logs
  | Throw _ => current
  end.

(** [now] is the reading of [Date.now()]; an omitted [questionCount]
    takes the parameter's default. *)
Definition addManualStudyLog (timeLogs : list TimeLog.t) (now : Z)
    (subject : Subject) (startTime endTime : Date.t) (questionCount : option Z)
    (goalId goalTitle notes : option string) : outcome (list TimeLog.t) :=
  let questionCount := default 0 questionCount in
  let startDate := startTime in
  let endDate := endTime in
  let duration := (Date.getTime endDate - Date.getTime startDate) / 1000 in
  if duration <=? 0 then Throw "End time must be after start time"
  else
    let newLog :=
      {| TimeLog.id := pretty now;
         TimeLog.subject := subject;
         TimeLog.duration := duration;
         TimeLog.timestamp := endTime;
         TimeLog.startTime := startTime;
         TimeLog.endTime := endTime;
         TimeLog.questionCount := questionCount;
         TimeLog.goalId := goalId;
         TimeLog.goalTitle := goalTitle;
         TimeLog.notes := notes |} in
    Ok (timeLogs ++ [newLog]).

Definition deleteStudyLog (timeLogs : list TimeLog.t) (logId : string) : list TimeLog.t :=
  List.filter (fun log => negb (String.eqb (TimeLog.id log) logId)) timeLogs.

Definition editStudyLogEndTime (timeLogs : list TimeLog.t) (logId : string)
    (newEndTime : Date.t) : outcome (list TimeLog.t) :=
  mapM (fun log =>
          if String.eqb (TimeLog.id log) logId then
            let startDate := TimeLog.startTime log in
            let endDate := newEndTime in
            let duration := (Date.getTime endDate - Date.getTime startDate) / 1000 in
            if duration <=? 0 then Throw "End time must be after start time"
            else Ok {| TimeLog.id := TimeLog.id log;
                       TimeLog.subject := TimeLog.subject log;
                       TimeLog.duration := duration;
                       TimeLog.timestamp := newEndTime;
                       TimeLog.startTime := TimeLog.startTime log;
                       TimeLog.endTime := newEndTime;
                       TimeLog.questionCount := TimeLog.questionCount log;
                       TimeLog.goalId := TimeLog.goalId log;
                       TimeLog.goalTitle := TimeLog.goalTitle log;
                       TimeLog.notes := TimeLog.notes log |}
          else Ok log)
       timeLogs.

Definition editStudyLogQuestionCount (timeLogs : list TimeLog.t) (logId : string)
    (newQuestionCount : Z) : list TimeLog.t :=
  map (fun log =>
         if String.eqb (TimeLog.id log) logId then
           {| TimeLog.id := TimeLog.id log;
              TimeLog.subject := TimeLog.subject log;
              TimeLog.duration := TimeLog.duration log;
              TimeLog.timestamp := TimeLog.timestamp log;
              TimeLog.startTime := TimeLog.startTime log;
              TimeLog.endTime := TimeLog.endTime log;
              TimeLog.questionCount := newQuestionCount;
              TimeLog.goalId := TimeLog.goalId log;
              TimeLog.goalTitle := TimeLog.goalTitle log;
              TimeLog.notes := TimeLog.notes log |}
         else log)
      timeLogs.

Definition editStudyLogNotes (timeLogs : list TimeLog.t) (logId : string)
    (newNotes : string) : list TimeLog.t :=
  map (fun log =>
         if String.eqb (TimeLog.id log) logId then
           {| TimeLog.id := TimeLog.id log;
              TimeLog.subject := TimeLog.subject log;
              TimeLog.duration := TimeLog.duration log;
              TimeLog.timestamp := TimeLog.timestamp log;
              TimeLog.startTime := TimeLog.startTime log;
              TimeLog.endTime := TimeLog.endTime log;
              TimeLog.questionCount := TimeLog.questionCount log;
              TimeLog.goalId := TimeLog.goalId log;
              TimeLog.goalTitle := TimeLog.goalTitle log;
              TimeLog.notes := Some newNotes |}
         else log)
      timeLogs.

(** *** Exam-type switch *)

(** A subject survives a switch to [examType] when it is "classes" or a
    key of that configuration's [subjectMarks]. *)
Definition validSubject (examType : ExamType) (subject : Subject) : bool :=
  String.eqb subject "classes"
  || includes (Object_keys (ExamConfig.subjectMarks (DEFAULT_EXAM_CONFIGS examType))) subject.

Definition handleUpdateSettings (st : state) (newSettings : UserSettings.t)
  : state :=
  if negb (ExamType_eqb (UserSettings.examType newSettings)
                        (UserSettings.examType (settings st))) then
    let validSubjects :=
      Object_keys (ExamConfig.subjectMarks
                     (DEFAULT_EXAM_CONFIGS (UserSettings.examType newSettings))) in
    {| tasks :=
         List.filter (fun task =>
                        validSubject (UserSettings.examType newSettings) (Task.subject task))
                     (tasks st);
       timeLogs :=
         List.filter (fun log =>
                        validSubject (UserSettings.examType newSettings) (TimeLog.subject log))
                     (timeLogs st);
       tests := [];
       (* validSubjects[0]: both configurations list at least one subject *)
       activeSubject := List.hd "" validSubjects;
       settings := newSettings |}
  else
    {| tasks := tasks st;
       timeLogs := timeLogs st;
       tests := tests st;
       activeSubject := activeSubject st;
       settings := newSettings |}.

(** *** Streak engine *)

(** The logs [checkStreakRequirements] counts for [date]: those started
    from 04:30 of that calendar date to 04:29:59.999 of the next one. *)
Definition dayLogs (timeLogs : list TimeLog.t) (date : Date.t) : list TimeLog.t :=
  let startOfDay := Date.setHours date 4 30 0 0 in
  let endOfDay := Date.setHours (Date.addDays date 1) 4 29 59 999 in
  List.filter (fun log =>
                 let logDate := TimeLog.startTime log in
                 (startOfDay <=? logDate) && (logDate <=? endOfDay))
              timeLogs.

Definition checkStreakRequirements (timeLogs : list TimeLog.t)
    (settings : UserSettings.t) (date : Date.t) : bool :=
  let dayLogs := dayLogs timeLogs date in
  let totalHours :=
    fold_left (fun total log =>
                 PrimFloat.add total (PrimFloat.div (Z2float (TimeLog.duration log)) 3600%float))
              dayLogs 0%float in
  let totalQuestions :=
    fold_left (fun total log => total + TimeLog.questionCount log) dayLogs 0 in
  PrimFloat.leb (StreakConfig.minStudyHours (UserSettings.streakConfig settings)) totalHours
  && (StreakConfig.minQuestions (UserSettings.streakConfig settings) <=? totalQuestions).

(** [now] is the reading of [new Date()]. *)
Definition updateStreak (timeLogs : list TimeLog.t) (settings : UserSettings.t)
    (streakData : StreakData.t) (now : Date.t) : StreakData.t :=
  let today := now in
  let yesterday := Date.addDays today (-1) in
  let lastStreakDate := StreakData.lastStreakDate streakData in
  let todayMet := checkStreakRequirements timeLogs settings today in
  let yesterdayMet := checkStreakRequirements timeLogs settings yesterday in
  let newStreak := StreakData.currentStreak streakData in
  let newHistory := StreakData.streakHistory streakData in
  let todayStr := today in
  let existingTodayIndex :=
    findIndex (fun h => Date.toDateString (HistoryEntry.date h) =? Date.toDateString today)
              newHistory in
  let newHistory :=
    if 0 <=? existingTodayIndex then
      alter (fun h => {| HistoryEntry.date := HistoryEntry.date h;
                         HistoryEntry.maintained := todayMet |})
            (Z.to_nat existingTodayIndex) newHistory
    else newHistory ++ [ {| HistoryEntry.date := todayStr;
                            HistoryEntry.maintained := todayMet |} ] in
  let isStreakBroken :=
    negb yesterdayMet
    && (Date.toDateString lastStreakDate =? Date.toDateString yesterday) in
  let newStreak := if isStreakBroken then 0 else newStreak in
  let newStreak :=
    if todayMet then
      if (Date.toDateString lastStreakDate =? Date.toDateString yesterday) && yesterdayMet
      then newStreak + 1
      else if negb (Date.toDateString lastStreakDate =? Date.toDateString today)
           then 1
           else newStreak
    else newStreak in
  {| StreakData.currentStreak := newStreak;
     StreakData.longestStreak := Z.max newStreak (StreakData.longestStreak streakData);
     StreakData.lastStreakDate := todayStr;
     StreakData.streakHistory := newHistory |}.

(** One evaluation of the engine: the session set, the settings and the
    clock reading it runs with. *)
Record evaluation := mkEvaluation {
  ev_timeLogs : list TimeLog.t;
  ev_settings : UserSettings.t;
  ev_now : Date.t
}.

(** The engine run over a sequence of evaluations, oldest first. *)
Definition runStreak (streakData : StreakData.t) (evs : list evaluation) : StreakData.t :=
  fold_left (fun sd ev => updateStreak (ev_timeLogs ev) (ev_settings ev) sd (ev_now ev))
            evs streakData.

(** The two readings of [checkStreakRequirements] an evaluation takes. *)
Definition todayMet (ev : evaluation) : bool :=
  checkStreakRequirements (ev_timeLogs ev) (ev_settings ev) (ev_now ev).

Definition yesterdayMet (ev : evaluation) : bool :=
  checkStreakRequirements (ev_timeLogs ev) (ev_settings ev) (Date.addDays (ev_now ev) (-1)).

(** The value of [currentStreak] after each evaluation of a sequence. *)
Fixpoint streakTrace (streakData : StreakData.t) (evs : list evaluation) : list Z :=
  match evs with
  | [] => []
  | ev :: evs' =>
      let next := updateStreak (ev_timeLogs ev) (ev_settings ev) streakData (ev_now ev) in
      StreakData.currentStreak next :: streakTrace next evs'
  end.

End Dashboard.

(** ** Aggregation (the [InsightsView] component) *)

Module InsightsView.

(** The value of [today] that [getFilteredLogs] computes from the clock:
    04:30 of the current calendar date, or of the previous one when the
    clock reads earlier than 04:30. *)
Definition studyDayStart (now : Date.t) : Date.t :=
  let today := Date.setHours now 4 30 0 0 in
  if (Date.getHours now <? 4) || ((Date.getHours now =? 4) && (Date.getMinutes now <? 30))
  then Date.addDays today (-1)
  else today.

(** [timeFrame] is one of "today", "week" and "month"; logs are dated by
    their [timestamp]. *)
Definition getFilteredLogs (timeLogs : list TimeLog.t) (timeFrame : string)
    (now : Date.t) : list TimeLog.t :=
  let today := studyDayStart now in
  List.filter (fun log =>
                 let logDate := TimeLog.timestamp log in
                 if String.eqb timeFrame "today" then today <=? logDate
                 else if String.eqb timeFrame "week" then
                   let weekStart := Date.addDays today (- Calendar.getDay today) in
                   let weekStart := Date.setHours weekStart 4 30 0 0 in
                   weekStart <=? logDate
                 else if String.eqb timeFrame "month" then
                   let monthStart :=
                     Date.setHours (Date.addDays today (- (Calendar.getDate today - 1)))
                                   4 30 0 0 in
                   monthStart <=? logDate
                 else true)
              timeLogs.

(** The logical day of an instant: the calendar date on which its study
    day started. *)
Definition logicalDay (t : Date.t) : Z := Date.dayNumber (studyDayStart t).

(** The [totals] object both aggregation functions start from:
    [{ classes: 0, ...keys.reduce((acc, subject) => ({ ...acc, [subject]: 0 }), {}) }]. *)
Definition initialTotals (settings : UserSettings.t) : gmap string Z :=
  fold_left (fun acc subject => <[subject := 0]> acc)
            (Object_keys (ExamConfig.subjectMarks
                            (DEFAULT_EXAM_CONFIGS (UserSettings.examType settings))))
            (∅ : gmap string Z)
  ∪ {["classes" := 0]}.

Definition getTotalTimeBySubject (settings : UserSettings.t)
    (filteredLogs : list TimeLog.t) : gmap string Z :=
  fold_left (fun totals log =>
               match totals !! TimeLog.subject log with
               | Some v => <[TimeLog.subject log := v + TimeLog.duration log]> totals
               | None => totals
               end)
            filteredLogs (initialTotals settings).

(** [x || 0] on a number. *)
Definition orZero (x : Z) : Z := if x =? 0 then 0 else x.

Definition getTotalQuestionsBySubject (settings : UserSettings.t)
    (filteredLogs : list TimeLog.t) : gmap string Z :=
  fold_left (fun totals log =>
               match totals !! TimeLog.subject log with
               | Some v => <[TimeLog.subject log := v + orZero (TimeLog.questionCount log)]> totals
               | None => totals
               end)
            filteredLogs (initialTotals settings).

End InsightsView.

(** ** Week-over-week change (the [WeeklyReport] component) *)

Module WeeklyReport.

Definition calculateChange (current previous : float) : float :=
  if PrimFloat.eqb previous 0%float then
    if PrimFloat.ltb 0%float current then 100%float else 0%float
  else
    Math_round (PrimFloat.mul (PrimFloat.div (PrimFloat.sub current previous) previous)
                              100%float).

(** The percentage as the specification words it, in exact arithmetic on
    whole numbers: [round(100 * (current - previous) / previous)], a tie
    going up, with the same policy for [previous = 0]. *)
Definition exactChange (current previous : Z) : Z :=
  if previous =? 0 then (if 0 <? current then 100 else 0)
  else (2 * (100 * (current - previous)) + previous) / (2 * previous).

(** The exact percentage lies halfway between two whole numbers. *)
Definition isTie (current previous : Z) : bool :=
  (200 * (current - previous) + previous) mod (2 * previous) =? 0.

(** [calculateChange] returns the exact rounding for every pair of whole
    numbers [0 <= current <= n], [1 <= previous <= n] that is not a tie. *)
Definition exactUpTo (n : Z) : bool :=
  forallb (fun current =>
             forallb (fun previous =>
                        isTie current previous
                        || match float2Z (calculateChange (Z2float current)
                                                          (Z2float previous)) with
                           | Some r => r =? exactChange current previous
                           | None => false
                           end)
                     (seqZ 1 n))
          (seqZ 0 (n + 1)).

End WeeklyReport.


(** ** The log editor (the [StudyLogs] component) *)

Module StudyLogs.

(** The component state [handleEditQuestionCount] reads and writes. *)
Record state := mkState {
  editingLog : option TimeLog.t;
  newQuestionCount : Z;
  error : string
}.

(** The form handler that calls [onEditLogQuestionCount], which the
    dashboard binds to [editStudyLogQuestionCount].  It returns the
    session collection and the component state it leaves behind. *)
Definition handleEditQuestionCount (timeLogs : list TimeLog.t) (st : state)
  : list TimeLog.t * state :=
  match editingLog st with
  | None => (timeLogs, st)
  | Some log =>
      if newQuestionCount st <? 0 then
        (timeLogs, {| editingLog := editingLog st;
                      newQuestionCount := newQuestionCount st;
                      error := "Question count cannot be negative" |})
      else
        (Dashboard.editStudyLogQuestionCount timeLogs (TimeLog.id log) (newQuestionCount st),
         {| editingLog := None; newQuestionCount := 0; error := "" |})
  end.

End StudyLogs.

(** ** Specification predicates *)

(** What [editStudyLogEndTime] does to one record. *)
Definition endTimeEdited (logId : string) (newEndTime : Date.t) (old new : TimeLog.t) : Prop :=
  if String.eqb (TimeLog.id old) logId then
    TimeLog.duration new = (TimeLog.endTime new - TimeLog.startTime new) / 1000
    /\ 0 < TimeLog.duration new
    /\ TimeLog.endTime new = newEndTime
    /\ TimeLog.timestamp new = newEndTime
    /\ TimeLog.startTime new = TimeLog.startTime old
    /\ TimeLog.id new = TimeLog.id old
    /\ TimeLog.subject new = TimeLog.subject old
    /\ TimeLog.questionCount new = TimeLog.questionCount old
    /\ TimeLog.goalId new = TimeLog.goalId old
    /\ TimeLog.goalTitle new = TimeLog.goalTitle old
    /\ TimeLog.notes new = TimeLog.notes old
  else new = old.

(** The sum of [measure] over the logs of one subject. *)
Definition subjectTotal (measure : TimeLog.t -> Z) (subject : Subject)
    (logs : list TimeLog.t) : Z :=
  foldr (fun log acc =>
           if String.eqb (TimeLog.subject log) subject then measure log + acc else acc)
        0 logs.

(** The keys the aggregation functions report on under [settings]. *)
Definition reportedSubject (settings : UserSettings.t) (subject : Subject) : Prop :=
  subject = "classes"
  \/ In subject (Object_keys (ExamConfig.subjectMarks
                                (DEFAULT_EXAM_CONFIGS (UserSettings.examType settings)))).

(** The calendar dates a streak history has entries for. *)
Definition historyDates (hist : list HistoryEntry.t) : list Z :=
  map (fun h => Date.toDateString (HistoryEntry.date h)) hist.

(** ** Sample data *)

Module Sample.

(** 2024-01-01 is day 19723 of the epoch. *)
Definition at_ (day h m : Z) : Date.t :=
  day * Date.MS_PER_DAY + h * Date.MS_PER_HOUR + m * Date.MS_PER_MINUTE.

Definition physicsLog : TimeLog.t :=
  {| TimeLog.id := "1";
     TimeLog.subject := "physics";
     TimeLog.duration := 3600;
     TimeLog.timestamp := at_ 19723 11 0;
     TimeLog.startTime := at_ 19723 10 0;
     TimeLog.endTime := at_ 19723 11 0;
     TimeLog.questionCount := 3;
     TimeLog.goalId := None;
     TimeLog.goalTitle := None;
     TimeLog.notes := None |}.

Definition mathsLog : TimeLog.t :=
  {| TimeLog.id := "2";
     TimeLog.subject := "mathematics";
     TimeLog.duration := 1800;
     TimeLog.timestamp := at_ 19723 12 30;
     TimeLog.startTime := at_ 19723 12 0;
     TimeLog.endTime := at_ 19723 12 30;
     TimeLog.questionCount := 12;
     TimeLog.goalId := Some "7";
     TimeLog.goalTitle := Some "Integration";
     TimeLog.notes := Some "by parts" |}.

Definition timeLogs : list TimeLog.t := [physicsLog; mathsLog].

Definition chemistryTask : Task.t :=
  {| Task.id := "7"; Task.title := "Mole concept"; Task.subject := "chemistry";
     Task.completed := false; Task.createdAt := at_ 19723 9 0 |}.

Definition mathsTask : Task.t :=
  {| Task.id := "8"; Task.title := "Integration"; Task.subject := "mathematics";
     Task.completed := true; Task.createdAt := at_ 19723 9 5 |}.

Definition classesTask : Task.t :=
  {| Task.id := "9"; Task.title := "Attend lecture"; Task.subject := "classes";
     Task.completed := false; Task.createdAt := at_ 19723 9 10 |}.

Definition mockTest : TestRecord.t :=
  {| TestRecord.id := "11"; TestRecord.date := at_ 19722 14 0;
     TestRecord.totalScore := 180; TestRecord.totalMarks := 300;
     TestRecord.timeSpent := 180; TestRecord.notes := None;
     TestRecord.subjectData :=
       [("physics", SubjectTestData.mk 60 25 18 7 None);
        ("chemistry", SubjectTestData.mk 70 25 20 5 None);
        ("mathematics", SubjectTestData.mk 50 25 15 10 None)] |}.

Definition settingsFor (examType : ExamType) : UserSettings.t :=
  {| UserSettings.examType := examType;
     UserSettings.customSubjectNames := [];
     UserSettings.streakConfig := DEFAULT_STREAK_CONFIG |}.

(** A JEE dashboard with the maths timer selected. *)
Definition jeeDashboard : Dashboard.state :=
  {| Dashboard.tasks := [chemistryTask; mathsTask; classesTask];
     Dashboard.timeLogs := timeLogs;
     Dashboard.tests := [mockTest];
     Dashboard.activeSubject := "mathematics";
     Dashboard.settings := settingsFor JEE |}.

(** A ten-hour session with sixty questions, from 08:00 to 18:00. *)
Definition fullDay (ident : string) (day : Z) : TimeLog.t :=
  {| TimeLog.id := ident;
     TimeLog.subject := "physics";
     TimeLog.duration := 36000;
     TimeLog.timestamp := at_ day 18 0;
     TimeLog.startTime := at_ day 8 0;
     TimeLog.endTime := at_ day 18 0;
     TimeLog.questionCount := 60;
     TimeLog.goalId := None;
     TimeLog.goalTitle := None;
     TimeLog.notes := None |}.

(** A streak state created the evening before day 19723. *)
Definition freshStreak : StreakData.t :=
  {| StreakData.currentStreak := 0;
     StreakData.longestStreak := 0;
     StreakData.lastStreakDate := at_ 19722 23 0;
     StreakData.streakHistory := [] |}.

Definition evening (logs : list TimeLog.t) (day : Z) : Dashboard.evaluation :=
  Dashboard.mkEvaluation logs (settingsFor JEE) (at_ day 23 0).

(** Five consecutive days, the engine run at 23:00 of each: a full day on
    the first, second, fourth and fifth, one short session on the third. *)
Definition shortSession : TimeLog.t :=
  {| TimeLog.id := "3";
     TimeLog.subject := "chemistry";
     TimeLog.duration := 3600;
     TimeLog.timestamp := at_ 19725 11 0;
     TimeLog.startTime := at_ 19725 10 0;
     TimeLog.endTime := at_ 19725 11 0;
     TimeLog.questionCount := 5;
     TimeLog.goalId := None;
     TimeLog.goalTitle := None;
     TimeLog.notes := None |}.

Definition day1 : Dashboard.evaluation :=
  evening [fullDay "1" 19723] 19723.
Definition day2 : Dashboard.evaluation :=
  evening [fullDay "1" 19723; fullDay "2" 19724] 19724.
Definition day3 : Dashboard.evaluation :=
  evening [fullDay "1" 19723; fullDay "2" 19724; shortSession] 19725.
Definition day4 : Dashboard.evaluation :=
  evening [fullDay "1" 19723; fullDay "2" 19724; shortSession; fullDay "4" 19726] 19726.
Definition day5 : Dashboard.evaluation :=
  evening [fullDay "1" 19723; fullDay "2" 19724; shortSession; fullDay "4" 19726;
           fullDay "5" 19727] 19727.

Definition fiveDays : list Dashboard.evaluation := [day1; day2; day3; day4; day5].

(** One study night.  A session from 08:00 to 18:00 is logged at 18:00 and
    one from 00:30 to 01:55 at 01:55; each change of the session set runs
    the engine, both times inside the logical day that began at 04:30 of
    day 19723. *)
Definition nightSession : TimeLog.t :=
  {| TimeLog.id := "2";
     TimeLog.subject := "physics";
     TimeLog.duration := 5100;
     TimeLog.timestamp := at_ 19724 1 55;
     TimeLog.startTime := at_ 19724 0 30;
     TimeLog.endTime := at_ 19724 1 55;
     TimeLog.questionCount := 10;
     TimeLog.goalId := None;
     TimeLog.goalTitle := None;
     TimeLog.notes := None |}.

Definition lateNight : list Dashboard.evaluation :=
  [Dashboard.mkEvaluation [fullDay "1" 19723] (settingsFor JEE) (at_ 19723 18 0);
   Dashboard.mkEvaluation [fullDay "1" 19723; nightSession] (settingsFor JEE)
                          (at_ 19724 1 55)].

End Sample.

(** ** Session store: validation and frame properties *)

Section SessionStore.

Implicit Types (timeLogs : list TimeLog.t) (log : TimeLog.t) (logId : string).

Lemma bind_Ok {A B : Type} (f : A -> outcome B) (a : A) : (Ok a ≫= f) = f a.
Proof. reflexivity. Qed.

Lemma bind_Throw {A B : Type} (f : A -> outcome B) (msg : string) :
  (Throw msg ≫= f) = Throw msg.
Proof. reflexivity. Qed.

Lemma mapM_cons {A B : Type} (f : A -> outcome B) (x : A) (xs : list A) :
  mapM f (x :: xs) = (f x ≫= fun y => mapM f xs ≫= fun ys => Ok (y :: ys)).
Proof. reflexivity. Qed.

Lemma deleteStudyLog_unknown timeLogs logId :
  (forall log, In log timeLogs -> TimeLog.id log <> logId) ->
  Dashboard.deleteStudyLog timeLogs logId = timeLogs.
Proof.
  unfold Dashboard.deleteStudyLog.
  induction timeLogs as [|log logs IH]; intros Hfresh; simpl; [reflexivity|].
  destruct (String.eqb_spec (TimeLog.id log) logId) as [Heq|Hne]; simpl.
  - exfalso. apply (Hfresh log); [now left | exact Heq].
  - f_equal. apply IH. intros l Hl. apply Hfresh. now right.
Qed.

Lemma editStudyLogEndTime_unknown timeLogs logId (newEndTime : Date.t) :
  (forall log, In log timeLogs -> TimeLog.id log <> logId) ->
  Dashboard.editStudyLogEndTime timeLogs logId newEndTime = Ok timeLogs.
Proof.
  unfold Dashboard.editStudyLogEndTime, Date.getTime.
  induction timeLogs as [|log logs IH]; intros Hfresh; [reflexivity|].
  rewrite mapM_cons.
  destruct (String.eqb_spec (TimeLog.id log) logId) as [Heq|Hne].
  - exfalso. apply (Hfresh log); [now left | exact Heq].
  - rewrite bind_Ok, IH; [reflexivity|].
    intros l Hl. apply Hfresh. now right.
Qed.

Lemma editStudyLogQuestionCount_unknown timeLogs logId (newQuestionCount : Z) :
  (forall log, In log timeLogs -> TimeLog.id log <> logId) ->
  Dashboard.editStudyLogQuestionCount timeLogs logId newQuestionCount = timeLogs.
Proof.
  unfold Dashboard.editStudyLogQuestionCount.
  induction timeLogs as [|log logs IH]; intros Hfresh; simpl; [reflexivity|].
  destruct (String.eqb_spec (TimeLog.id log) logId) as [Heq|Hne].
  - exfalso. apply (Hfresh log); [now left | exact Heq].
  - f_equal. apply IH. intros l Hl. apply Hfresh. now right.
Qed.

Lemma editStudyLogNotes_unknown timeLogs logId (newNotes : string) :
  (forall log, In log timeLogs -> TimeLog.id log <> logId) ->
  Dashboard.editStudyLogNotes timeLogs logId newNotes = timeLogs.
Proof.
  unfold Dashboard.editStudyLogNotes.
  induction timeLogs as [|log logs IH]; intros Hfresh; simpl; [reflexivity|].
  destruct (String.eqb_spec (TimeLog.id log) logId) as [Heq|Hne].
  - exfalso. apply (Hfresh log); [now left | exact Heq].
  - f_equal. apply IH. intros l Hl. apply Hfresh. now right.
Qed.

Lemma editStudyLogEndTime_Ok timeLogs logId (newEndTime : Date.t) :
  forall logs',
    Dashboard.editStudyLogEndTime timeLogs logId newEndTime = Ok logs' ->
    Forall2 (endTimeEdited logId newEndTime) timeLogs logs'.
Proof.
  unfold Dashboard.editStudyLogEndTime, Date.getTime.
  induction timeLogs as [|log logs IH]; intros logs' H.
  - simpl in H. injection H as <-. constructor.
  - rewrite mapM_cons in H.
    destruct (String.eqb (TimeLog.id log) logId) eqn:Hid.
    + destruct ((newEndTime - TimeLog.startTime log) / 1000 <=? 0) eqn:Hd;
        [rewrite bind_Throw in H; discriminate|].
      rewrite bind_Ok in H.
      destruct (mapM _ logs) as [ys|msg] eqn:Hrest;
        [rewrite bind_Ok in H | rewrite bind_Throw in H; discriminate].
      injection H as <-. constructor; [|now apply IH].
      unfold endTimeEdited. rewrite Hid. simpl.
      apply Z.leb_gt in Hd. repeat split; try reflexivity. exact Hd.
    + rewrite bind_Ok in H.
      destruct (mapM _ logs) as [ys|msg] eqn:Hrest;
        [rewrite bind_Ok in H | rewrite bind_Throw in H; discriminate].
      injection H as <-. constructor; [|now apply IH].
      unfold endTimeEdited. now rewrite Hid.
Qed.

Lemma editStudyLogEndTime_Throw timeLogs logId (newEndTime : Date.t) :
  (exists log, In log timeLogs /\ TimeLog.id log = logId
               /\ newEndTime <= TimeLog.startTime log) ->
  exists msg, Dashboard.editStudyLogEndTime timeLogs logId newEndTime = Throw msg.
Proof.
  unfold Dashboard.editStudyLogEndTime, Date.getTime.
  induction timeLogs as [|log logs IH]; intros (bad & Hin & Hid & Hle); [destruct Hin|].
  rewrite mapM_cons.
  destruct (String.eqb (TimeLog.id log) logId) eqn:Heq.
  - destruct ((newEndTime - TimeLog.startTime log) / 1000 <=? 0) eqn:Hd.
    + rewrite bind_Throw. eauto.
    + rewrite bind_Ok.
      destruct Hin as [->|Hin].
      * apply Z.leb_gt in Hd. exfalso.
        assert ((newEndTime - TimeLog.startTime bad) / 1000 <= 0); [|lia].
        apply Z.div_le_upper_bound; lia.
      * destruct IH as [msg Hmsg]; [now exists bad|].
        rewrite Hmsg, bind_Throw. eauto.
  - rewrite bind_Ok.
    destruct Hin as [->|Hin].
    + apply String.eqb_neq in Heq. contradiction.
    + destruct IH as [msg Hmsg]; [now exists bad|].
      rewrite Hmsg, bind_Throw. eauto.
Qed.

Lemma editStudyLogEndTime_succeeds timeLogs logId (newEndTime : Date.t) :
  (forall log, In log timeLogs -> TimeLog.id log = logId ->
               TimeLog.startTime log + 1000 <= newEndTime) ->
  exists logs', Dashboard.editStudyLogEndTime timeLogs logId newEndTime = Ok logs'.
Proof.
  unfold Dashboard.editStudyLogEndTime, Date.getTime.
  induction timeLogs as [|log logs IH]; intros Hall; [now exists []|].
  rewrite mapM_cons.
  destruct IH as [ys Hys]; [intros l Hl; apply Hall; now right|].
  destruct (String.eqb_spec (TimeLog.id log) logId) as [Heq|Hne].
  - destruct ((newEndTime - TimeLog.startTime log) / 1000 <=? 0) eqn:Hd.
    + apply Z.leb_le in Hd. exfalso.
      assert (1 <= (newEndTime - TimeLog.startTime log) / 1000); [|lia].
      apply Z.div_le_lower_bound; [lia|].
      specialize (Hall log (or_introl eq_refl) Heq). lia.
    + rewrite bind_Ok, Hys, bind_Ok. eauto.
  - rewrite bind_Ok, Hys, bind_Ok. eauto.
Qed.

End SessionStore.

(** C10. Deleting or editing (end time, question count, notes) with an id
    that matches no record raises nothing and returns the collection as it
    was, element for element. *)
Theorem unknown_id_is_noop
    (timeLogs : list TimeLog.t) (logId : string)
    (newEndTime : Date.t) (newQuestionCount : Z) (newNotes : string) :
  (forall log, In log timeLogs -> TimeLog.id log <> logId) ->
  Dashboard.deleteStudyLog timeLogs logId = timeLogs
  /\ Dashboard.editStudyLogEndTime timeLogs logId newEndTime = Ok timeLogs
  /\ Dashboard.editStudyLogQuestionCount timeLogs logId newQuestionCount = timeLogs
  /\ Dashboard.editStudyLogNotes timeLogs logId newNotes = timeLogs.
Proof.
  intros Hfresh. repeat split.
  - now apply deleteStudyLog_unknown.
  - now apply editStudyLogEndTime_unknown.
  - now apply editStudyLogQuestionCount_unknown.
  - now apply editStudyLogNotes_unknown.
Qed.

Lemma unknown_id_is_noop_witness :
  Dashboard.deleteStudyLog Sample.timeLogs "3" = Sample.timeLogs
  /\ Dashboard.editStudyLogEndTime Sample.timeLogs "3" (Sample.at_ 19723 9 0) = Ok Sample.timeLogs
  /\ Dashboard.editStudyLogQuestionCount Sample.timeLogs "3" (-5) = Sample.timeLogs
  /\ Dashboard.editStudyLogNotes Sample.timeLogs "3" "none" = Sample.timeLogs.
Proof.
  apply (unknown_id_is_noop Sample.timeLogs "3").
  intros log [<-|[<-|[]]]; discriminate.
Defined.

(** C3. A record created by manual entry, or changed by an end-time edit,
    has [duration = floor((end - start) / 1000)] whole seconds, strictly
    positive; a creation or an edit with end <= start throws and the
    session collection stays as it was.  Both operations do succeed once
    the end is a full second after the start. *)
Theorem session_duration_validated
    (timeLogs : list TimeLog.t) (now : Z) (subject : Subject) (startTime endTime : Date.t)
    (questionCount : option Z) (goalId goalTitle notes : option string)
    (logId : string) (newEndTime : Date.t) :
  let created :=
    Dashboard.addManualStudyLog timeLogs now subject startTime endTime
                                questionCount goalId goalTitle notes in
  let edited := Dashboard.editStudyLogEndTime timeLogs logId newEndTime in
  (endTime <= startTime ->
     (exists msg, created = Throw msg) /\ Dashboard.setTimeLogs timeLogs created = timeLogs)
  /\ (forall logs', created = Ok logs' ->
        exists newLog,
          logs' = timeLogs ++ [newLog]
          /\ TimeLog.startTime newLog = startTime
          /\ TimeLog.endTime newLog = endTime
          /\ TimeLog.duration newLog = (endTime - startTime) / 1000
          /\ 0 < TimeLog.duration newLog)
  /\ (startTime + 1000 <= endTime -> exists logs', created = Ok logs')
  /\ ((exists log, In log timeLogs /\ TimeLog.id log = logId
                    /\ newEndTime <= TimeLog.startTime log) ->
        (exists msg, edited = Throw msg) /\ Dashboard.setTimeLogs timeLogs edited = timeLogs)
  /\ (forall logs', edited = Ok logs' ->
        Forall2 (endTimeEdited logId newEndTime) timeLogs logs')
  /\ ((forall log, In log timeLogs -> TimeLog.id log = logId ->
                    TimeLog.startTime log + 1000 <= newEndTime) ->
        exists logs', edited = Ok logs').
Proof.
  intros created edited. subst created edited.
  unfold Dashboard.addManualStudyLog, Date.getTime.
  repeat apply conj.
  - intros Hle.
    assert ((endTime - startTime) / 1000 <= 0) as Hd
        by (apply Z.div_le_upper_bound; lia).
    apply Z.leb_le in Hd. rewrite Hd. split; [eauto | reflexivity].
  - intros logs' H.
    destruct ((endTime - startTime) / 1000 <=? 0) eqn:Hd; [discriminate|].
    injection H as <-. eexists. split; [reflexivity|]. simpl.
    apply Z.leb_gt in Hd. repeat split. exact Hd.
  - intros Hge.
    assert (1 <= (endTime - startTime) / 1000) as Hd
        by (apply Z.div_le_lower_bound; lia).
    destruct ((endTime - startTime) / 1000 <=? 0) eqn:Hd'; [apply Z.leb_le in Hd'; lia|].
    eauto.
  - intros Hbad.
    destruct (editStudyLogEndTime_Throw timeLogs logId newEndTime Hbad) as [msg Hmsg].
    rewrite Hmsg. split; [eauto | reflexivity].
  - apply editStudyLogEndTime_Ok.
  - apply editStudyLogEndTime_succeeds.
Qed.

Lemma session_duration_validated_witness :
  Dashboard.setTimeLogs Sample.timeLogs
    (Dashboard.addManualStudyLog Sample.timeLogs 1704103200000 "physics"
       (Sample.at_ 19723 10 0) (Sample.at_ 19723 9 0) None None None None)
  = Sample.timeLogs
  /\ Dashboard.setTimeLogs Sample.timeLogs
       (Dashboard.editStudyLogEndTime Sample.timeLogs "1" (Sample.at_ 19723 10 0))
     = Sample.timeLogs
  /\ (exists logs',
        Dashboard.addManualStudyLog Sample.timeLogs 1704103200000 "physics"
          (Sample.at_ 19723 10 0) (Sample.at_ 19723 10 30) None None None None = Ok logs')
  /\ (exists logs',
        Dashboard.editStudyLogEndTime Sample.timeLogs "1" (Sample.at_ 19723 10 30) = Ok logs').
Proof.
  pose proof (session_duration_validated Sample.timeLogs 1704103200000 "physics"
                (Sample.at_ 19723 10 0) (Sample.at_ 19723 9 0) None None None None
                "1" (Sample.at_ 19723 10 0)) as Hbad.
  pose proof (session_duration_validated Sample.timeLogs 1704103200000 "physics"
                (Sample.at_ 19723 10 0) (Sample.at_ 19723 10 30) None None None None
                "1" (Sample.at_ 19723 10 30)) as Hgood.
  cbv zeta in Hbad, Hgood.
  destruct Hbad as (Hcreate & _ & _ & Hedit & _ & _).
  destruct Hgood as (_ & _ & Hcreated & _ & _ & Hedited).
  split; [|split; [|split]].
  - apply Hcreate. vm_compute. discriminate.
  - apply Hedit. exists Sample.physicsLog.
    split; [now left|]. split; [reflexivity|]. vm_compute. discriminate.
  - apply Hcreated. vm_compute. discriminate.
  - apply Hedited. intros log [<-|[<-|[]]] Hid; [|discriminate Hid].
    vm_compute. discriminate.
Defined.

(** The edit form refuses a negative count before it calls the mutation:
    it records a message and the collection is not touched. *)
Lemma handleEditQuestionCount_rejects_negative
    (timeLogs : list TimeLog.t) (st : StudyLogs.state) (log : TimeLog.t) :
  StudyLogs.editingLog st = Some log ->
  StudyLogs.newQuestionCount st < 0 ->
  fst (StudyLogs.handleEditQuestionCount timeLogs st) = timeLogs
  /\ StudyLogs.error (snd (StudyLogs.handleEditQuestionCount timeLogs st))
     = "Question count cannot be negative".
Proof.
  intros Hlog Hneg. unfold StudyLogs.handleEditQuestionCount. rewrite Hlog.
  apply Z.ltb_lt in Hneg. rewrite Hneg. split; reflexivity.
Qed.


(** ** Day boundary *)

Section DayBoundary.

(** Day 19723 is Monday 2024-01-01; day 19782 is 2024-02-29. *)
Example calendar_examples :
  Calendar.getDay (Sample.at_ 19723 10 0) = 1
  /\ Calendar.getDate (Sample.at_ 19723 10 0) = 1
  /\ Calendar.getDate (Sample.at_ 19782 23 59) = 29
  /\ Calendar.getDate (Sample.at_ 19783 0 0) = 1
  /\ Calendar.getDate (Sample.at_ (-1) 12 0) = 31
  /\ Date.getHours (Sample.at_ 19723 4 29) = 4
  /\ Date.getMinutes (Sample.at_ 19723 4 29) = 29
  /\ Date.toDateString (Sample.at_ 19723 23 59) = 19723.
Proof. repeat split. Qed.

Implicit Types (t now date : Date.t).

Lemma before_cutover_iff now :
  (Date.getHours now <? 4) || ((Date.getHours now =? 4) && (Date.getMinutes now <? 30))
  = (now mod Date.MS_PER_DAY <? 16200000).
Proof.
  unfold Date.getHours, Date.getMinutes, Date.MS_PER_DAY, Date.MS_PER_HOUR,
    Date.MS_PER_MINUTE.
  apply eq_true_iff_eq.
  rewrite orb_true_iff, andb_true_iff, !Z.ltb_lt, Z.eqb_eq.
  Z.div_mod_to_equations. lia.
Qed.

Lemma studyDayStart_eq now :
  InsightsView.studyDayStart now
  = (if now mod Date.MS_PER_DAY <? 16200000
     then Date.dayNumber now - 1 else Date.dayNumber now) * Date.MS_PER_DAY + 16200000.
Proof.
  unfold InsightsView.studyDayStart. rewrite before_cutover_iff.
  unfold Date.addDays, Date.setHours, Date.MS_PER_DAY, Date.MS_PER_HOUR,
    Date.MS_PER_MINUTE.
  destruct (_ <? _); lia.
Qed.

Lemma logicalDay_eq t :
  InsightsView.logicalDay t
  = if t mod Date.MS_PER_DAY <? 16200000 then Date.dayNumber t - 1 else Date.dayNumber t.
Proof.
  unfold InsightsView.logicalDay. rewrite studyDayStart_eq.
  unfold Date.dayNumber, Date.MS_PER_DAY.
  destruct (_ <? _); Z.div_mod_to_equations; lia.
Qed.

(** The logical day of [t] is [d] exactly when [t] lies in the window
    that opens at 04:30 of day [d] and closes before 04:30 of day [d + 1]. *)
Lemma logicalDay_window t d :
  InsightsView.logicalDay t = d
  <-> d * Date.MS_PER_DAY + 16200000 <= t < (d + 1) * Date.MS_PER_DAY + 16200000.
Proof.
  rewrite logicalDay_eq. unfold Date.dayNumber, Date.MS_PER_DAY.
  destruct (_ <? _) eqn:Hlt; [apply Z.ltb_lt in Hlt | apply Z.ltb_ge in Hlt];
    Z.div_mod_to_equations; lia.
Qed.

Lemma dayLogs_In (timeLogs : list TimeLog.t) date (log : TimeLog.t) :
  In log (Dashboard.dayLogs timeLogs date)
  <-> In log timeLogs
      /\ InsightsView.logicalDay (TimeLog.startTime log) = Date.dayNumber date.
Proof.
  unfold Dashboard.dayLogs. rewrite filter_In, logicalDay_window.
  rewrite andb_true_iff, !Z.leb_le.
  unfold Date.setHours, Date.addDays, Date.dayNumber, Date.MS_PER_DAY,
    Date.MS_PER_HOUR, Date.MS_PER_MINUTE.
  split; intros [Hin Hw]; (split; [exact Hin|]);
    revert Hw; Z.div_mod_to_equations; lia.
Qed.

Lemma getFilteredLogs_today_In (timeLogs : list TimeLog.t) now (log : TimeLog.t) :
  In log (InsightsView.getFilteredLogs timeLogs "today" now)
  <-> In log timeLogs
      /\ InsightsView.logicalDay now <= InsightsView.logicalDay (TimeLog.timestamp log).
Proof.
  unfold InsightsView.getFilteredLogs. rewrite filter_In. simpl.
  rewrite Z.leb_le, studyDayStart_eq, <- logicalDay_eq.
  pose proof (proj1 (logicalDay_window (TimeLog.timestamp log) _) eq_refl) as Hw.
  unfold Date.MS_PER_DAY in *.
  split; intros [Hin H]; (split; [exact Hin|]); lia.
Qed.

End DayBoundary.

(** C2. An instant whose local time of day is before 04:30 belongs to the
    logical day of the previous calendar date, one at or after 04:30 to
    that of its own calendar date; 04:30:00.000 itself opens the new
    logical day; two instants of one [04:30, next 04:30) window have the
    same logical day.  The streak check and the "today" filter select
    their logs by this assignment. *)
Theorem logicalDay_cutover (t : Date.t) :
  (t mod Date.MS_PER_DAY < 16200000 ->
     InsightsView.logicalDay t = Date.dayNumber t - 1)
  /\ (16200000 <= t mod Date.MS_PER_DAY ->
        InsightsView.logicalDay t = Date.dayNumber t)
  /\ InsightsView.logicalDay (Date.setHours t 4 30 0 0) = Date.dayNumber t
  /\ InsightsView.logicalDay (Date.setHours t 4 29 59 999) = Date.dayNumber t - 1
  /\ (forall (d : Z) (t' : Date.t),
        d * Date.MS_PER_DAY + 16200000 <= t < (d + 1) * Date.MS_PER_DAY + 16200000 ->
        d * Date.MS_PER_DAY + 16200000 <= t' < (d + 1) * Date.MS_PER_DAY + 16200000 ->
        InsightsView.logicalDay t' = InsightsView.logicalDay t)
  /\ (forall (timeLogs : list TimeLog.t) (log : TimeLog.t),
        (In log (Dashboard.dayLogs timeLogs t)
         <-> In log timeLogs
             /\ InsightsView.logicalDay (TimeLog.startTime log) = Date.dayNumber t)
        /\ (In log (InsightsView.getFilteredLogs timeLogs "today" t)
            <-> In log timeLogs
                /\ InsightsView.logicalDay t
                   <= InsightsView.logicalDay (TimeLog.timestamp log))).
Proof.
  repeat apply conj.
  - intros H. rewrite logicalDay_eq. apply Z.ltb_lt in H. now rewrite H.
  - intros H. rewrite logicalDay_eq. apply Z.ltb_ge in H. now rewrite H.
  - apply logicalDay_window.
    unfold Date.setHours, Date.dayNumber, Date.MS_PER_DAY, Date.MS_PER_HOUR,
      Date.MS_PER_MINUTE. lia.
  - apply logicalDay_window.
    unfold Date.setHours, Date.dayNumber, Date.MS_PER_DAY, Date.MS_PER_HOUR,
      Date.MS_PER_MINUTE. lia.
  - intros d t' Ht Ht'.
    apply logicalDay_window in Ht, Ht'. congruence.
  - intros timeLogs log. split.
    + apply dayLogs_In.
    + apply getFilteredLogs_today_In.
Qed.

Lemma logicalDay_cutover_witness :
  InsightsView.logicalDay (Sample.at_ 19724 4 29) = 19723
  /\ InsightsView.logicalDay (Sample.at_ 19724 4 30) = 19724
  /\ InsightsView.logicalDay (Sample.at_ 19724 23 59)
     = InsightsView.logicalDay (Sample.at_ 19725 2 0).
Proof.
  pose proof (logicalDay_cutover (Sample.at_ 19724 4 29)) as (Hbefore & _).
  pose proof (logicalDay_cutover (Sample.at_ 19724 4 30)) as (_ & Hafter & _).
  pose proof (logicalDay_cutover (Sample.at_ 19725 2 0)) as (_ & _ & _ & _ & Hsame & _).
  split; [|split].
  - apply Hbefore. vm_compute. reflexivity.
  - apply Hafter. vm_compute. discriminate.
  - apply (Hsame 19724); vm_compute; split; congruence.
Defined.

(** ** Exam-type switch *)

Section ExamSwitch.

Lemma validSubject_spec (examType : ExamType) (subject : Subject) :
  Dashboard.validSubject examType subject = true
  <-> subject = "classes"
      \/ In subject (Object_keys (ExamConfig.subjectMarks (DEFAULT_EXAM_CONFIGS examType))).
Proof.
  unfold Dashboard.validSubject, includes.
  rewrite orb_true_iff, String.eqb_eq, existsb_exists.
  split; (intros [H|H]; [now left | right]).
  - destruct H as (s & Hin & Heq). apply String.eqb_eq in Heq. now subst.
  - exists subject. split; [exact H | apply String.eqb_refl].
Qed.

Lemma filter_sublist {A : Type} (f : A -> bool) (l : list A) :
  sublist (List.filter f l) l.
Proof.
  induction l as [|x l IH]; simpl; [constructor|].
  destruct (f x); now constructor.
Qed.

Lemma ExamType_eqb_neq (a b : ExamType) : a <> b -> ExamType_eqb a b = false.
Proof. destruct a, b; intros H; try reflexivity; now contradiction H. Qed.

End ExamSwitch.

(** C4. A change of exam type keeps, in their order and untouched, exactly
    the sessions and the tasks whose subject is "classes" or a subject of
    the new configuration, discards every test record, and selects the
    first subject of the new configuration, all in the one state that
    [handleUpdateSettings] returns. *)
Theorem exam_switch_rescopes (st : Dashboard.state) (newSettings : UserSettings.t) :
  UserSettings.examType newSettings <> UserSettings.examType (Dashboard.settings st) ->
  let st' := Dashboard.handleUpdateSettings st newSettings in
  let subjects :=
    Object_keys (ExamConfig.subjectMarks
                   (DEFAULT_EXAM_CONFIGS (UserSettings.examType newSettings))) in
  (forall log, In log (Dashboard.timeLogs st')
               <-> In log (Dashboard.timeLogs st)
                   /\ (TimeLog.subject log = "classes" \/ In (TimeLog.subject log) subjects))
  /\ sublist (Dashboard.timeLogs st') (Dashboard.timeLogs st)
  /\ (forall task, In task (Dashboard.tasks st')
                    <-> In task (Dashboard.tasks st)
                        /\ (Task.subject task = "classes" \/ In (Task.subject task) subjects))
  /\ sublist (Dashboard.tasks st') (Dashboard.tasks st)
  /\ Dashboard.tests st' = []
  /\ subjects !! 0%nat = Some (Dashboard.activeSubject st')
  /\ Dashboard.settings st' = newSettings.
Proof.
  intros Hne st' subjects. subst st' subjects.
  unfold Dashboard.handleUpdateSettings.
  rewrite (ExamType_eqb_neq _ _ Hne). simpl.
  repeat apply conj.
  - intros log. now rewrite filter_In, validSubject_spec.
  - apply filter_sublist.
  - intros task. now rewrite filter_In, validSubject_spec.
  - apply filter_sublist.
  - reflexivity.
  - now destruct (UserSettings.examType newSettings).
  - reflexivity.
Qed.

(** From JEE to NEET: the mathematics session and task go, the physics
    session and the chemistry and classes tasks stay as they were, the
    test is dropped and the timer moves from mathematics to physics. *)
Lemma exam_switch_rescopes_witness :
  let st' := Dashboard.handleUpdateSettings Sample.jeeDashboard (Sample.settingsFor NEET) in
  In Sample.physicsLog (Dashboard.timeLogs st')
  /\ ~ In Sample.mathsLog (Dashboard.timeLogs st')
  /\ In Sample.chemistryTask (Dashboard.tasks st')
  /\ In Sample.classesTask (Dashboard.tasks st')
  /\ ~ In Sample.mathsTask (Dashboard.tasks st')
  /\ Dashboard.tests st' = []
  /\ Dashboard.activeSubject st' = "physics".
Proof.
  intros st'.
  assert (UserSettings.examType (Sample.settingsFor NEET)
          <> UserSettings.examType (Dashboard.settings Sample.jeeDashboard)) as Hne
      by discriminate.
  pose proof (exam_switch_rescopes Sample.jeeDashboard (Sample.settingsFor NEET) Hne) as H.
  cbv zeta in H. fold st' in H.
  destruct H as (Hlogs & _ & Htasks & _ & Htests & Hactive & _).
  repeat apply conj.
  - apply Hlogs. split; [now left | right; now left].
  - intros Hin. apply Hlogs in Hin as [_ [Hc|Hs]]; [discriminate Hc|].
    simpl in Hs. intuition discriminate.
  - apply Htasks. split; [now left | right; right; now left].
  - apply Htasks. split; [right; right; now left | now left].
  - intros Hin. apply Htasks in Hin as [_ [Hc|Hs]]; [discriminate Hc|].
    simpl in Hs. intuition discriminate.
  - exact Htests.
  - change (Some "physics" = Some (Dashboard.activeSubject st')) in Hactive.
    congruence.
Defined.

(** ** Aggregation by subject *)

Section Aggregation.

Variable measure : TimeLog.t -> Z.

(** The body of the [forEach] loop of both aggregation functions. *)
Let accumulate (totals : gmap string Z) (log : TimeLog.t) : gmap string Z :=
  match totals !! TimeLog.subject log with
  | Some v => <[TimeLog.subject log := v + measure log]> totals
  | None => totals
  end.

Lemma accumulate_lookup (totals : gmap string Z) (log : TimeLog.t) (s : string) :
  accumulate totals log !! s
  = (fun v => if String.eqb (TimeLog.subject log) s then v + measure log else v)
      <$> (totals !! s).
Proof.
  unfold accumulate.
  destruct (String.eqb_spec (TimeLog.subject log) s) as [Heq|Hne].
  - rewrite Heq.
    destruct (totals !! s) as [v|] eqn:Hs; simpl.
    + now rewrite lookup_insert_eq.
    + exact Hs.
  - destruct (totals !! TimeLog.subject log) as [v|] eqn:Hl.
    + rewrite lookup_insert_ne by exact Hne. now destruct (totals !! s).
    + now destruct (totals !! s).
Qed.

Lemma fold_accumulate_lookup (logs : list TimeLog.t) :
  forall (totals : gmap string Z) (s : string),
    fold_left accumulate logs totals !! s
    = (fun v => v + subjectTotal measure s logs) <$> (totals !! s).
Proof.
  induction logs as [|log logs IH]; intros totals s; simpl.
  - destruct (totals !! s); simpl; f_equal; lia.
  - rewrite IH, accumulate_lookup.
    destruct (totals !! s) as [v|]; simpl; [|reflexivity].
    f_equal. destruct (String.eqb _ _); lia.
Qed.

Lemma subjectTotal_Permutation (s : string) (logs1 logs2 : list TimeLog.t) :
  Permutation logs1 logs2 -> subjectTotal measure s logs1 = subjectTotal measure s logs2.
Proof.
  induction 1 as [|x l l' _ IH|x y l|l l' l'' _ IH1 _ IH2]; simpl.
  - reflexivity.
  - now rewrite IH.
  - destruct (String.eqb _ _), (String.eqb _ _); lia.
  - congruence.
Qed.

Lemma subjectTotal_absent (s : string) (logs : list TimeLog.t) :
  (forall log, In log logs -> TimeLog.subject log <> s) ->
  subjectTotal measure s logs = 0.
Proof.
  induction logs as [|log logs IH]; intros Habs; simpl; [reflexivity|].
  destruct (String.eqb_spec (TimeLog.subject log) s) as [Heq|_].
  - exfalso. apply (Habs log); [now left | exact Heq].
  - apply IH. intros l Hl. apply Habs. now right.
Qed.

Lemma initialTotals_lookup (settings : UserSettings.t) (s : string) :
  (reportedSubject settings s -> InsightsView.initialTotals settings !! s = Some 0)
  /\ (~ reportedSubject settings s -> InsightsView.initialTotals settings !! s = None).
Proof.
  unfold reportedSubject, InsightsView.initialTotals.
  destruct (UserSettings.examType settings); simpl;
    rewrite lookup_union, lookup_singleton, !lookup_insert, lookup_empty;
    split; intros Hs; repeat case_decide; subst; simpl; try reflexivity;
    exfalso; intuition congruence.
Qed.

Lemma fold_accumulate_total (settings : UserSettings.t) (logs : list TimeLog.t)
    (s : string) :
  (reportedSubject settings s ->
     fold_left accumulate logs (InsightsView.initialTotals settings) !! s
     = Some (subjectTotal measure s logs))
  /\ (~ reportedSubject settings s ->
        fold_left accumulate logs (InsightsView.initialTotals settings) !! s = None).
Proof.
  rewrite fold_accumulate_lookup.
  destruct (initialTotals_lookup settings s) as [Hin Hout].
  split; intros H.
  - now rewrite (Hin H).
  - now rewrite (Hout H).
Qed.

End Aggregation.

Section SubjectTotals.

Implicit Types (settings : UserSettings.t) (logs : list TimeLog.t) (s : string).

Lemma orZero_id (x : Z) : InsightsView.orZero x = x.
Proof. unfold InsightsView.orZero. destruct (Z.eqb_spec x 0); congruence. Qed.

Lemma getTotalTimeBySubject_lookup settings logs s :
  (reportedSubject settings s ->
     InsightsView.getTotalTimeBySubject settings logs !! s
     = Some (subjectTotal TimeLog.duration s logs))
  /\ (~ reportedSubject settings s ->
        InsightsView.getTotalTimeBySubject settings logs !! s = None).
Proof. apply (fold_accumulate_total TimeLog.duration). Qed.

Lemma getTotalQuestionsBySubject_lookup settings logs s :
  (reportedSubject settings s ->
     InsightsView.getTotalQuestionsBySubject settings logs !! s
     = Some (subjectTotal TimeLog.questionCount s logs))
  /\ (~ reportedSubject settings s ->
        InsightsView.getTotalQuestionsBySubject settings logs !! s = None).
Proof.
  replace (subjectTotal TimeLog.questionCount s logs)
    with (subjectTotal (fun log => InsightsView.orZero (TimeLog.questionCount log)) s logs).
  - apply (fold_accumulate_total
             (fun log => InsightsView.orZero (TimeLog.questionCount log))).
  - induction logs as [|log logs IH]; simpl; [reflexivity|].
    now rewrite IH, orZero_id.
Qed.

Lemma List_filter_Permutation {A : Type} (f : A -> bool) (l1 l2 : list A) :
  Permutation l1 l2 -> Permutation (List.filter f l1) (List.filter f l2).
Proof.
  induction 1 as [|x l l' _ IH|x y l|l l' l'' _ IH1 _ IH2]; simpl.
  - constructor.
  - destruct (f x); [now constructor | exact IH].
  - destruct (f x), (f y); try reflexivity. apply perm_swap.
  - now transitivity (List.filter f l').
Qed.

Lemma getFilteredLogs_Permutation logs1 logs2 (timeFrame : string) (now : Date.t) :
  Permutation logs1 logs2 ->
  Permutation (InsightsView.getFilteredLogs logs1 timeFrame now)
              (InsightsView.getFilteredLogs logs2 timeFrame now).
Proof. apply List_filter_Permutation. Qed.

Lemma reportedSubject_dec settings s :
  reportedSubject settings s \/ ~ reportedSubject settings s.
Proof.
  unfold reportedSubject.
  destruct (decide (s = "classes")) as [->|Hc]; [left; now left|].
  destruct (in_dec String.string_dec s
              (Object_keys (ExamConfig.subjectMarks
                              (DEFAULT_EXAM_CONFIGS (UserSettings.examType settings)))))
    as [Hin|Hout]; [left; now right | right; tauto].
Qed.

Lemma totals_dom settings (totals : gmap string Z) (total : string -> Z) :
  (forall s, (reportedSubject settings s -> totals !! s = Some (total s))
             /\ (~ reportedSubject settings s -> totals !! s = None)) ->
  forall s, s ∈ dom totals <-> reportedSubject settings s.
Proof.
  intros Hlookup s. rewrite elem_of_dom.
  destruct (Hlookup s) as [Hin Hout].
  destruct (reportedSubject_dec settings s) as [Hs|Hs].
  - rewrite (Hin Hs). split; [tauto | eauto].
  - rewrite (Hout Hs). split; [intros [x Hx]; discriminate | tauto].
Qed.

Lemma totals_eq settings (totals1 totals2 : gmap string Z) (total : string -> Z) :
  (forall s, (reportedSubject settings s -> totals1 !! s = Some (total s))
             /\ (~ reportedSubject settings s -> totals1 !! s = None)) ->
  (forall s, (reportedSubject settings s -> totals2 !! s = Some (total s))
             /\ (~ reportedSubject settings s -> totals2 !! s = None)) ->
  totals1 = totals2.
Proof.
  intros H1 H2. apply map_eq. intros s.
  destruct (H1 s) as [Hin1 Hout1], (H2 s) as [Hin2 Hout2].
  destruct (reportedSubject_dec settings s) as [Hs|Hs].
  - now rewrite (Hin1 Hs), (Hin2 Hs).
  - now rewrite (Hout1 Hs), (Hout2 Hs).
Qed.

End SubjectTotals.

(** C6. The per-subject totals of time and of questions do not depend on
    the order of the records, whether the list is summed as it is or first
    filtered by time frame; their keys are exactly "classes" and the
    subjects of the active exam configuration; each key holds the sum over
    the records of that subject, hence 0 when there are none.  (The
    functions are pure: they read [filteredLogs] and build a fresh
    [totals] object, so arguments pass through unchanged by construction.) *)
Theorem subject_totals_order_invariant
    (settings : UserSettings.t) (logs1 logs2 : list TimeLog.t) :
  Permutation logs1 logs2 ->
  InsightsView.getTotalTimeBySubject settings logs1
  = InsightsView.getTotalTimeBySubject settings logs2
  /\ InsightsView.getTotalQuestionsBySubject settings logs1
     = InsightsView.getTotalQuestionsBySubject settings logs2
  /\ (forall (timeFrame : string) (now : Date.t),
        InsightsView.getTotalTimeBySubject settings
          (InsightsView.getFilteredLogs logs1 timeFrame now)
        = InsightsView.getTotalTimeBySubject settings
            (InsightsView.getFilteredLogs logs2 timeFrame now)
        /\ InsightsView.getTotalQuestionsBySubject settings
             (InsightsView.getFilteredLogs logs1 timeFrame now)
           = InsightsView.getTotalQuestionsBySubject settings
               (InsightsView.getFilteredLogs logs2 timeFrame now))
  /\ (forall s, s ∈ dom (InsightsView.getTotalTimeBySubject settings logs1)
                <-> reportedSubject settings s)
  /\ (forall s, s ∈ dom (InsightsView.getTotalQuestionsBySubject settings logs1)
                <-> reportedSubject settings s)
  /\ (forall s, reportedSubject settings s ->
        InsightsView.getTotalTimeBySubject settings logs1 !! s
        = Some (subjectTotal TimeLog.duration s logs1)
        /\ InsightsView.getTotalQuestionsBySubject settings logs1 !! s
           = Some (subjectTotal TimeLog.questionCount s logs1))
  /\ (forall s, reportedSubject settings s ->
        (forall log, In log logs1 -> TimeLog.subject log <> s) ->
        InsightsView.getTotalTimeBySubject settings logs1 !! s = Some 0
        /\ InsightsView.getTotalQuestionsBySubject settings logs1 !! s = Some 0).
Proof.
  intros Hperm.
  assert (forall l1 l2, Permutation l1 l2 ->
            InsightsView.getTotalTimeBySubject settings l1
            = InsightsView.getTotalTimeBySubject settings l2) as Htime.
  { intros l1 l2 H.
    apply (totals_eq settings _ _ (fun s => subjectTotal TimeLog.duration s l1)).
    - intros s. apply getTotalTimeBySubject_lookup.
    - intros s. rewrite (subjectTotal_Permutation _ s _ _ H).
      apply getTotalTimeBySubject_lookup. }
  assert (forall l1 l2, Permutation l1 l2 ->
            InsightsView.getTotalQuestionsBySubject settings l1
            = InsightsView.getTotalQuestionsBySubject settings l2) as Hquestions.
  { intros l1 l2 H.
    apply (totals_eq settings _ _ (fun s => subjectTotal TimeLog.questionCount s l1)).
    - intros s. apply getTotalQuestionsBySubject_lookup.
    - intros s. rewrite (subjectTotal_Permutation _ s _ _ H).
      apply getTotalQuestionsBySubject_lookup. }
  repeat apply conj.
  - now apply Htime.
  - now apply Hquestions.
  - intros timeFrame now. split.
    + now apply Htime, getFilteredLogs_Permutation.
    + now apply Hquestions, getFilteredLogs_Permutation.
  - apply (totals_dom settings _ (fun s => subjectTotal TimeLog.duration s logs1)).
    intros s. apply getTotalTimeBySubject_lookup.
  - apply (totals_dom settings _ (fun s => subjectTotal TimeLog.questionCount s logs1)).
    intros s. apply getTotalQuestionsBySubject_lookup.
  - intros s Hs. split.
    + now apply getTotalTimeBySubject_lookup.
    + now apply getTotalQuestionsBySubject_lookup.
  - intros s Hs Habs. split.
    + rewrite <- (subjectTotal_absent TimeLog.duration s logs1 Habs).
      now apply getTotalTimeBySubject_lookup.
    + rewrite <- (subjectTotal_absent TimeLog.questionCount s logs1 Habs).
      now apply getTotalQuestionsBySubject_lookup.
Qed.

Lemma subject_totals_order_invariant_witness :
  InsightsView.getTotalTimeBySubject (Sample.settingsFor JEE)
    [Sample.physicsLog; Sample.mathsLog]
  = InsightsView.getTotalTimeBySubject (Sample.settingsFor JEE)
      [Sample.mathsLog; Sample.physicsLog]
  /\ InsightsView.getTotalTimeBySubject (Sample.settingsFor JEE)
       [Sample.physicsLog; Sample.mathsLog] !! "chemistry" = Some 0
  /\ InsightsView.getTotalQuestionsBySubject (Sample.settingsFor JEE)
       [Sample.physicsLog; Sample.mathsLog] !! "classes" = Some 0.
Proof.
  pose proof (subject_totals_order_invariant (Sample.settingsFor JEE)
                [Sample.physicsLog; Sample.mathsLog] [Sample.mathsLog; Sample.physicsLog]
                (perm_swap _ _ _)) as (Htime & _ & _ & _ & _ & _ & Hzero).
  split; [exact Htime|]. split.
  - apply (Hzero "chemistry").
    + right. right. now left.
    + intros log [<-|[<-|[]]]; discriminate.
  - apply (Hzero "classes").
    + now left.
    + intros log [<-|[<-|[]]]; discriminate.
Defined.

(** ** Week-over-week change *)

Section WeekOverWeek.

(** [Math.round] sends a tie towards plus infinity and leaves anything else
    at the nearest integer. *)
Example Math_round_examples :
  Math_round 57.5 = 58%float
  /\ Math_round 14.5 = 15%float
  /\ Math_round (-27.5) = (-27)%float
  /\ Math_round 2.25 = 2%float
  /\ Math_round (-2.75) = (-3)%float
  /\ Math_round (-0.25) = neg_zero
  /\ Math_round 1e22 = 1e22%float
  /\ Math_round infinity = infinity.
Proof. repeat split. Qed.

Lemma exactUpTo_200 : WeeklyReport.exactUpTo 200 = true.
Proof. vm_compute. reflexivity. Qed.

Lemma exactUpTo_spec (n current previous : Z) :
  WeeklyReport.exactUpTo n = true ->
  0 <= current <= n -> 1 <= previous <= n ->
  WeeklyReport.isTie current previous = false ->
  float2Z (WeeklyReport.calculateChange (Z2float current) (Z2float previous))
  = Some (WeeklyReport.exactChange current previous).
Proof.
  unfold WeeklyReport.exactUpTo. intros Hall Hc Hp Htie.
  rewrite forallb_forall in Hall.
  assert (In current (seqZ 0 (n + 1))) as Hinc
      by (apply list_elem_of_In, elem_of_seqZ; lia).
  specialize (Hall current Hinc). rewrite forallb_forall in Hall.
  assert (In previous (seqZ 1 n)) as Hinp
      by (apply list_elem_of_In, elem_of_seqZ; lia).
  specialize (Hall previous Hinp). rewrite Htie in Hall. simpl in Hall.
  destruct (float2Z _) as [r|]; [|discriminate].
  apply Z.eqb_eq in Hall. now subst.
Qed.

End WeekOverWeek.

(** C5 as the specification states it fails for [current = 63],
    [previous = 40]: the exact change is 100 * 23 / 40 = 57.5, which rounds
    to 58, and [calculateChange] returns 57, because the quotient 0.575 is
    not a binary64 value and its double times 100 falls below 57.5. *)
Lemma calculateChange_63_40 :
  2 * (100 * (63 - 40)) = 115 * 40
  /\ WeeklyReport.exactChange 63 40 = 58
  /\ WeeklyReport.calculateChange 63 40 = 57%float
  /\ float2Z (WeeklyReport.calculateChange (Z2float 63) (Z2float 40))
     <> Some (WeeklyReport.exactChange 63 40).
Proof.
  split; [reflexivity|]. split; [reflexivity|]. split; [reflexivity|].
  vm_compute. discriminate.
Qed.

(** C5, amended.  With [previous = 0] the result is 100 when [current > 0]
    and 0 otherwise; with any other [previous] it is [Math.round] of the
    double [((current - previous) / previous) * 100], quotient first.  On
    whole numbers up to 200 that double rounds to the exact percentage
    rounded to the nearest integer whenever the exact percentage is not
    halfway between two integers.  [calculateChange(0, 0)] is 0,
    [calculateChange(50, 0)] is 100 and [calculateChange(80, 100)] is -20. *)
Theorem calculateChange_rounds_double (current previous : float) :
  (PrimFloat.eqb previous 0 = true ->
     WeeklyReport.calculateChange current previous
     = if PrimFloat.ltb 0 current then 100%float else 0%float)
  /\ (PrimFloat.eqb previous 0 = false ->
        WeeklyReport.calculateChange current previous
        = Math_round (PrimFloat.mul
                        (PrimFloat.div (PrimFloat.sub current previous) previous)
                        100))
  /\ (forall c p : Z,
        0 <= c <= 200 -> 1 <= p <= 200 -> WeeklyReport.isTie c p = false ->
        float2Z (WeeklyReport.calculateChange (Z2float c) (Z2float p))
        = Some (WeeklyReport.exactChange c p))
  /\ WeeklyReport.calculateChange 0 0 = 0%float
  /\ WeeklyReport.calculateChange 50 0 = 100%float
  /\ WeeklyReport.calculateChange 80 100 = (-20)%float.
Proof.
  unfold WeeklyReport.calculateChange at 1 2.
  repeat apply conj.
  - now intros ->.
  - now intros ->.
  - intros c p. apply exactUpTo_spec, exactUpTo_200.
  - reflexivity.
  - reflexivity.
  - reflexivity.
Qed.

Lemma calculateChange_rounds_double_witness :
  WeeklyReport.calculateChange 7 0 = 100%float
  /\ WeeklyReport.calculateChange (-7) 0 = 0%float
  /\ WeeklyReport.calculateChange 229 200 = 14%float
  /\ float2Z (WeeklyReport.calculateChange (Z2float 120) (Z2float 90)) = Some 33.
Proof.
  pose proof (calculateChange_rounds_double 7 0) as (Hpos & _).
  pose proof (calculateChange_rounds_double (-7) 0) as (Hneg & _).
  pose proof (calculateChange_rounds_double 229 200) as (_ & Hround & Hexact & _).
  split; [|split; [|split]].
  - apply Hpos. reflexivity.
  - apply Hneg. reflexivity.
  - exact (Hround eq_refl).
  - apply (Hexact 120 90); [lia | lia | reflexivity].
Defined.

(** ** Streak engine *)

Section StreakEngine.

Implicit Types (timeLogs : list TimeLog.t) (settings : UserSettings.t)
  (streakData : StreakData.t) (now : Date.t).

Lemma dayNumber_addDays (t : Date.t) (k : Z) :
  Date.dayNumber (Date.addDays t k) = Date.dayNumber t + k.
Proof.
  unfold Date.dayNumber, Date.addDays, Date.MS_PER_DAY.
  Z.div_mod_to_equations. lia.
Qed.

(** The streak count one evaluation leaves, as a function of the two
    requirement checks and of where [lastStreakDate] lies. *)
Lemma updateStreak_currentStreak timeLogs settings streakData now :
  let last := Date.dayNumber (StreakData.lastStreakDate streakData) in
  let today := Date.dayNumber now in
  let todayMet := Dashboard.checkStreakRequirements timeLogs settings now in
  let yesterdayMet :=
    Dashboard.checkStreakRequirements timeLogs settings (Date.addDays now (-1)) in
  let kept :=
    if negb yesterdayMet && (last =? today - 1) then 0
    else StreakData.currentStreak streakData in
  StreakData.currentStreak (Dashboard.updateStreak timeLogs settings streakData now)
  = if todayMet then
      if (last =? today - 1) && yesterdayMet then kept + 1
      else if negb (last =? today) then 1 else kept
    else kept.
Proof.
  unfold Dashboard.updateStreak, Date.toDateString. simpl.
  rewrite !dayNumber_addDays. reflexivity.
Qed.

Lemma updateStreak_lastStreakDate timeLogs settings streakData now :
  StreakData.lastStreakDate (Dashboard.updateStreak timeLogs settings streakData now) = now.
Proof. reflexivity. Qed.

Lemma updateStreak_longestStreak timeLogs settings streakData now :
  StreakData.longestStreak (Dashboard.updateStreak timeLogs settings streakData now)
  = Z.max (StreakData.longestStreak streakData)
          (StreakData.currentStreak
             (Dashboard.updateStreak timeLogs settings streakData now)).
Proof. unfold Dashboard.updateStreak. simpl. apply Z.max_comm. Qed.

Lemma runStreak_longestStreak_mono (evs : list Dashboard.evaluation) :
  forall streakData,
    StreakData.longestStreak streakData
    <= StreakData.longestStreak (Dashboard.runStreak streakData evs).
Proof.
  unfold Dashboard.runStreak.
  induction evs as [|ev evs IH]; intros streakData; simpl; [lia|].
  etransitivity; [|apply IH].
  rewrite updateStreak_longestStreak. lia.
Qed.

End StreakEngine.

(** C8. One evaluation sets [longestStreak] to the larger of its previous
    value and the new [currentStreak], so it never decreases, over one step
    or over any run, from any state and with any session set. *)
Theorem longestStreak_never_decreases
    (timeLogs : list TimeLog.t) (settings : UserSettings.t)
    (streakData : StreakData.t) (now : Date.t) (evs : list Dashboard.evaluation) :
  let next := Dashboard.updateStreak timeLogs settings streakData now in
  StreakData.longestStreak next
  = Z.max (StreakData.longestStreak streakData) (StreakData.currentStreak next)
  /\ StreakData.longestStreak streakData <= StreakData.longestStreak next
  /\ StreakData.longestStreak streakData
     <= StreakData.longestStreak (Dashboard.runStreak streakData evs).
Proof.
  intros next. subst next. split; [|split].
  - apply updateStreak_longestStreak.
  - rewrite updateStreak_longestStreak. lia.
  - apply runStreak_longestStreak_mono.
Qed.

Section StreakScenario.

Implicit Types (timeLogs : list TimeLog.t) (settings : UserSettings.t)
  (streakData : StreakData.t) (now : Date.t).

(** The first evaluation after a pause, on a day that qualifies. *)
Lemma updateStreak_restart timeLogs settings streakData now :
  Date.dayNumber (StreakData.lastStreakDate streakData) < Date.dayNumber now ->
  StreakData.currentStreak streakData = 0 ->
  Dashboard.checkStreakRequirements timeLogs settings now = true ->
  StreakData.currentStreak (Dashboard.updateStreak timeLogs settings streakData now) = 1.
Proof.
  intros Hlast Hzero Hmet.
  rewrite updateStreak_currentStreak. cbv zeta. rewrite Hmet, Hzero.
  destruct (Z.eqb_spec (Date.dayNumber (StreakData.lastStreakDate streakData))
                       (Date.dayNumber now)) as [Heq|_]; [lia|].
  destruct (_ =? _),
    (Dashboard.checkStreakRequirements timeLogs settings (Date.addDays now (-1)));
    reflexivity.
Qed.

(** An evaluation on the day after the previous one. *)
Lemma updateStreak_next_day timeLogs settings streakData now :
  Date.dayNumber (StreakData.lastStreakDate streakData) = Date.dayNumber now - 1 ->
  StreakData.currentStreak (Dashboard.updateStreak timeLogs settings streakData now)
  = let yesterdayMet :=
      Dashboard.checkStreakRequirements timeLogs settings (Date.addDays now (-1)) in
    if Dashboard.checkStreakRequirements timeLogs settings now
    then (if yesterdayMet then StreakData.currentStreak streakData + 1 else 1)
    else (if yesterdayMet then StreakData.currentStreak streakData else 0).
Proof.
  intros Hlast.
  rewrite updateStreak_currentStreak. cbv zeta. rewrite Hlast, Z.eqb_refl.
  destruct (Z.eqb_spec (Date.dayNumber now - 1) (Date.dayNumber now)) as [Heq|_]; [lia|].
  destruct (Dashboard.checkStreakRequirements timeLogs settings (Date.addDays now (-1))),
    (Dashboard.checkStreakRequirements timeLogs settings now); reflexivity.
Qed.

End StreakScenario.




(** ** Streak history *)

Section StreakHistory.

Implicit Types (timeLogs : list TimeLog.t) (settings : UserSettings.t)
  (streakData : StreakData.t) (now : Date.t) (hist : list HistoryEntry.t).

Lemma findIndexFrom_cases {A : Type} (p : A -> bool) (l : list A) :
  forall i : Z,
    0 <= i ->
    (findIndexFrom p i l = -1 /\ Forall (fun x => p x = false) l)
    \/ (exists (n : nat) (x : A),
           findIndexFrom p i l = i + Z.of_nat n /\ l !! n = Some x /\ p x = true).
Proof.
  induction l as [|y l IH]; intros i Hi; simpl.
  - left. split; [reflexivity | constructor].
  - destruct (p y) eqn:Hy.
    + right. exists 0%nat, y. repeat split; [lia | exact Hy].
    + destruct (IH (i + 1)) as [[Hnone Hall]|(n & x & Hidx & Hx & Hp)]; [lia| |].
      * left. split; [exact Hnone | now constructor].
      * right. exists (S n), x. repeat split; [lia | exact Hx | exact Hp].
Qed.

Lemma dates_alter hist (n : nat) (met : bool) :
  historyDates (alter (fun h => {| HistoryEntry.date := HistoryEntry.date h;
                            HistoryEntry.maintained := met |}) n hist)
  = historyDates hist.
Proof.
  revert n. induction hist as [|h hist IH]; intros [|n]; simpl; try reflexivity.
  f_equal. apply IH.
Qed.

(** The history after one evaluation: the entry of today's calendar date
    is overwritten if there is one, and appended otherwise. *)
Lemma updateStreak_history timeLogs settings streakData now :
  let hist := StreakData.streakHistory streakData in
  let hist' :=
    StreakData.streakHistory (Dashboard.updateStreak timeLogs settings streakData now) in
  let met := Dashboard.checkStreakRequirements timeLogs settings now in
  (~ In (Date.toDateString now) (historyDates hist)
   /\ hist' = hist ++ [ {| HistoryEntry.date := now; HistoryEntry.maintained := met |} ])
  \/ (exists (n : nat) (h : HistoryEntry.t),
         hist !! n = Some h
         /\ Date.toDateString (HistoryEntry.date h) = Date.toDateString now
         /\ hist' = alter (fun h => {| HistoryEntry.date := HistoryEntry.date h;
                                       HistoryEntry.maintained := met |}) n hist).
Proof.
  intros hist hist' met. subst hist'. unfold Dashboard.updateStreak, findIndex. simpl.
  fold hist. fold met.
  destruct (findIndexFrom_cases
              (fun h => Date.toDateString (HistoryEntry.date h) =? Date.toDateString now)
              hist 0) as [[Hnone Hall]|(n & h & Hidx & Hh & Hp)]; [lia| |].
  - left. rewrite Hnone. simpl. split; [|reflexivity].
    unfold historyDates. rewrite in_map_iff. intros (h & Heq & Hin).
    rewrite Forall_forall in Hall. apply list_elem_of_In in Hin.
    specialize (Hall h Hin). simpl in Hall.
    apply Z.eqb_neq in Hall. congruence.
  - right. exists n, h. rewrite Hidx.
    destruct (Z.leb_spec 0 (0 + Z.of_nat n)) as [_|Hneg]; [|lia].
    replace (Z.to_nat (0 + Z.of_nat n)) with n by lia.
    apply Z.eqb_eq in Hp. repeat split; [exact Hh | exact Hp].
Qed.

Lemma updateStreak_dates timeLogs settings streakData now :
  NoDup (historyDates (StreakData.streakHistory streakData)) ->
  NoDup (historyDates (StreakData.streakHistory
                  (Dashboard.updateStreak timeLogs settings streakData now))).
Proof.
  intros Hnodup.
  destruct (updateStreak_history timeLogs settings streakData now)
    as [[Hfresh ->]|(n & h & _ & _ & ->)].
  - unfold historyDates in *. rewrite map_app. simpl.
    apply NoDup_app. split; [exact Hnodup|]. split.
    + intros x Hx Hin. apply list_elem_of_In in Hx.
      apply list_elem_of_In in Hin as [<-|[]]. contradiction.
    + apply NoDup_singleton.
  - now rewrite dates_alter.
Qed.

(** After any run that starts with at most one entry per calendar date,
    the history has at most one entry per calendar date. *)
Lemma runStreak_dates (evs : list Dashboard.evaluation) :
  forall streakData,
    NoDup (historyDates (StreakData.streakHistory streakData)) ->
    NoDup (historyDates (StreakData.streakHistory (Dashboard.runStreak streakData evs))).
Proof.
  unfold Dashboard.runStreak.
  induction evs as [|ev evs IH]; intros streakData Hnodup; simpl; [exact Hnodup|].
  apply IH, updateStreak_dates, Hnodup.
Qed.

(** The last evaluation wins: every entry dated today carries the flag
    just computed. *)
Lemma updateStreak_last_wins timeLogs settings streakData now (h' : HistoryEntry.t) :
  NoDup (historyDates (StreakData.streakHistory streakData)) ->
  In h' (StreakData.streakHistory (Dashboard.updateStreak timeLogs settings streakData now)) ->
  Date.toDateString (HistoryEntry.date h') = Date.toDateString now ->
  HistoryEntry.maintained h' = Dashboard.checkStreakRequirements timeLogs settings now.
Proof.
  intros Hnodup Hin Htoday.
  destruct (updateStreak_history timeLogs settings streakData now)
    as [[Hfresh Heq]|(n & h & Hn & Hh & Heq)]; rewrite Heq in Hin.
  - apply in_app_or in Hin as [Hold|[<-|[]]]; [|reflexivity].
    exfalso. apply Hfresh. unfold historyDates. rewrite in_map_iff. eauto.
  - apply list_elem_of_In, list_elem_of_lookup in Hin as [m Hm].
    destruct (decide (n = m)) as [<-|Hne].
    + rewrite list_lookup_alter_eq, Hn in Hm. injection Hm as <-. reflexivity.
    + rewrite list_lookup_alter_ne in Hm by exact Hne.
      exfalso. apply Hne.
      apply (NoDup_lookup (historyDates (StreakData.streakHistory streakData)) n m
                          (Date.toDateString now)).
      * exact Hnodup.
      * unfold historyDates. rewrite <- Hh.
        change (map ?f ?l) with (f <$> l). now rewrite list_lookup_fmap, Hn.
      * unfold historyDates. rewrite <- Htoday.
        change (map ?f ?l) with (f <$> l). now rewrite list_lookup_fmap, Hm.
Qed.

End StreakHistory.

(** C7, as the code has it.  History entries are keyed by the calendar
    date of the clock ([toDateString]), not by the logical day.  Run at
    18:00 and again at 01:55 of the same study night, the engine appends a
    second entry: the history then holds two entries whose dates lie in one
    logical day, with different flags. *)
Theorem history_two_entries_in_one_logical_day :
  map (fun ev => InsightsView.logicalDay (Dashboard.ev_now ev)) Sample.lateNight
  = [19723; 19723]
  /\ StreakData.streakHistory (Dashboard.runStreak Sample.freshStreak Sample.lateNight)
     = [ {| HistoryEntry.date := Sample.at_ 19723 18 0; HistoryEntry.maintained := true |};
         {| HistoryEntry.date := Sample.at_ 19724 1 55; HistoryEntry.maintained := false |} ]
  /\ map (fun h => InsightsView.logicalDay (HistoryEntry.date h))
         (StreakData.streakHistory (Dashboard.runStreak Sample.freshStreak Sample.lateNight))
     = [19723; 19723]
  /\ ~ NoDup (map (fun h => InsightsView.logicalDay (HistoryEntry.date h))
                  (StreakData.streakHistory
                     (Dashboard.runStreak Sample.freshStreak Sample.lateNight))).
Proof.
  split; [vm_compute; reflexivity|].
  split; [vm_compute; reflexivity|]. split; [vm_compute; reflexivity|].
  intros Hnodup.
  replace (map _ _) with [19723; 19723] in Hnodup by (vm_compute; reflexivity).
  inversion Hnodup as [|x l Hnotin _]. apply Hnotin. now left.
Qed.
